(** * go-fork: the launch protocol of [fork.go]

    A shallow embedding of [NewFork], [Fork], [ReFork], [Wait] and
    [validateArgs], with the parts of [reflect], [os], [os/exec],
    [io/ioutil] and [encoding/gob] that they call, followed by the
    properties of the launch protocol. *)

From Stdlib Require Import String List Bool Arith ZArith Lia.
Import ListNotations.

Local Open Scope string_scope.
Local Open Scope list_scope.

(** ** Results of Go calls

    A Go call either returns or panics.  A nil [error] is [None]. *)

Inductive result (A : Type) : Type :=
| Ret (a : A)
| Panic (msg : string).
Arguments Ret {A} a.
Arguments Panic {A} msg.

Definition result_bind {A B} (r : result A) (k : A -> result B) : result B :=
  match r with
  | Ret a => k a
  | Panic msg => Panic msg
  end.

Notation "'let?' x ':=' r 'in' k" := (result_bind r (fun x => k))
  (at level 10, x name, r at level 100, k at level 200).

(** The runtime error raised by a method call through a nil pointer or a
    nil interface. *)
Definition nil_dereference : string :=
  "runtime error: invalid memory address or nil pointer dereference".

(** ** reflect *)

Module reflect.

(** [reflect.Kind], in the order of its declaration. *)
Inductive Kind : Set :=
| Invalid | Bool | Int | Int8 | Int16 | Int32 | Int64
| Uint | Uint8 | Uint16 | Uint32 | Uint64 | Uintptr
| Float32 | Float64 | Complex64 | Complex128
| Array | Chan | Func | Interface | Map | Pointer | Slice
| String | Struct | UnsafePointer.

Scheme Equality for Kind.

(** [Kind.String], which [%s] prints. *)
Definition Kind_String (k : Kind) : string :=
  match k with
  | Invalid => "invalid" | Bool => "bool" | Int => "int" | Int8 => "int8"
  | Int16 => "int16" | Int32 => "int32" | Int64 => "int64"
  | Uint => "uint" | Uint8 => "uint8" | Uint16 => "uint16"
  | Uint32 => "uint32" | Uint64 => "uint64" | Uintptr => "uintptr"
  | Float32 => "float32" | Float64 => "float64"
  | Complex64 => "complex64" | Complex128 => "complex128"
  | Array => "array" | Chan => "chan" | Func => "func"
  | Interface => "interface" | Map => "map" | Pointer => "ptr"
  | Slice => "slice" | String => "string" | Struct => "struct"
  | UnsafePointer => "unsafe.Pointer"
  end.

(** A runtime type descriptor, seen through the methods [fork.go] calls:
    [Kind], [String] and, for a function type, its parameters. *)
#[warnings="-register-all"]
Inductive rtype : Type :=
| mkType (kind : Kind) (str : string) (params : list rtype).

Definition kind (t : rtype) : Kind := let 'mkType k _ _ := t in k.
Definition Type_String (t : rtype) : string := let 'mkType _ s _ := t in s.
Definition params (t : rtype) : list rtype := let 'mkType _ _ ps := t in ps.

(** What an interface value holds besides its dynamic type. *)
Inductive data : Type :=
| DInt (n : Z)
| DString (s : string)
| DRef (addr : nat).

(** A value of type [interface{}]: the nil interface, or a dynamic type
    with its data.  [reflect.ValueOf] wraps it without change, the zero
    [reflect.Value] being the wrapping of nil. *)
Inductive value : Type :=
| nil_value
| Val (t : rtype) (d : data).

(** [Value.Kind]: [Invalid] for the zero Value. *)
Definition Value_Kind (v : value) : Kind :=
  match v with
  | nil_value => Invalid
  | Val t _ => kind t
  end.

(** [Value.Type] panics on the zero Value. *)
Definition Value_Type (v : value) : result rtype :=
  match v with
  | nil_value => Panic "reflect: call of reflect.Value.Type on zero Value"
  | Val t _ => Ret t
  end.

(** [reflect.TypeOf]: the nil [Type] for the nil interface. *)
Definition TypeOf (v : value) : option rtype :=
  match v with
  | nil_value => None
  | Val t _ => Some t
  end.

(** [Type.Kind], called on a [Type] that may be the nil interface. *)
Definition Type_Kind (t : option rtype) : result Kind :=
  match t with
  | None => Panic nil_dereference
  | Some t => Ret (kind t)
  end.

(** [Type.NumIn] and [Type.In] panic on a type that is not a function
    type; [In] panics out of range. *)
Definition NumIn (t : rtype) : result nat :=
  match kind t with
  | Func => Ret (length (params t))
  | _ => Panic "reflect: NumIn of non-func type"
  end.

Definition In (t : rtype) (i : nat) : result rtype :=
  match kind t with
  | Func =>
      match nth_error (params t) i with
      | Some p => Ret p
      | None => Panic "reflect: Func index out of bounds"
      end
  | _ => Panic "reflect: In of non-func type"
  end.

End reflect.

(** A Go [error] value, by what kind of error it is. *)
Inductive error : Type :=
| Errorf (msg : string)
| os_error (msg : string)
| ExitError (code : Z).

(** ** os and syscall *)

Module os.

(** What a [*os.File] points to; the pointer itself is an [option]. *)
Record File : Type := mkFile { name : string; fd : Z }.

Definition Stdin : option File := Some (mkFile "/dev/stdin" 0).
Definition Stdout : option File := Some (mkFile "/dev/stdout" 1).
Definition Stderr : option File := Some (mkFile "/dev/stderr" 2).

(** [File.Name] reads a field through the receiver: it panics on a
    nil receiver. *)
Definition File_Name (f : option File) : result string :=
  match f with
  | Some f => Ret (name f)
  | None => Panic nil_dereference
  end.

Record Process : Type := mkProcess { Pid : Z }.

Record ProcessState : Type := mkProcessState { pid : Z; ExitCode : Z }.

Definition Success (st : ProcessState) : bool := (ExitCode st =? 0)%Z.

End os.

Module syscall.

(** The platform's attribute block, which [fork.go] only passes on:
    a block is told from another by its tag. *)
Record SysProcAttr : Type := mkSysProcAttr { tag : nat }.

End syscall.

(** ** os/exec *)

Module exec.

(** An [io.Reader] or [io.Writer] interface value as [fork.go] stores
    them: the nil interface, or a [*os.File], which may itself be a nil
    pointer (an interface that is not nil). *)
Inductive stream : Type :=
| no_stream
| file (p : option os.File).

(** The fields of [exec.Cmd] that [fork.go] reads or writes. *)
Record Cmd : Type := mkCmd {
  Path : string;
  Args : list string;
  Env : list string;
  Stdin : stream;
  Stdout : stream;
  Stderr : stream;
  SysProcAttr : option syscall.SysProcAttr;
  Process : option os.Process;
  ProcessState : option os.ProcessState
}.

(** [exec.Cmd{}] *)
Definition zero : Cmd :=
  mkCmd "" [] [] no_stream no_stream no_stream None None None.

Definition set_Path (c : Cmd) (x : string) : Cmd :=
  mkCmd x (Args c) (Env c) (Stdin c) (Stdout c) (Stderr c)
        (SysProcAttr c) (Process c) (ProcessState c).
Definition set_Args (c : Cmd) (x : list string) : Cmd :=
  mkCmd (Path c) x (Env c) (Stdin c) (Stdout c) (Stderr c)
        (SysProcAttr c) (Process c) (ProcessState c).
Definition set_Env (c : Cmd) (x : list string) : Cmd :=
  mkCmd (Path c) (Args c) x (Stdin c) (Stdout c) (Stderr c)
        (SysProcAttr c) (Process c) (ProcessState c).
Definition set_Stdin (c : Cmd) (x : stream) : Cmd :=
  mkCmd (Path c) (Args c) (Env c) x (Stdout c) (Stderr c)
        (SysProcAttr c) (Process c) (ProcessState c).
Definition set_Stdout (c : Cmd) (x : stream) : Cmd :=
  mkCmd (Path c) (Args c) (Env c) (Stdin c) x (Stderr c)
        (SysProcAttr c) (Process c) (ProcessState c).
Definition set_Stderr (c : Cmd) (x : stream) : Cmd :=
  mkCmd (Path c) (Args c) (Env c) (Stdin c) (Stdout c) x
        (SysProcAttr c) (Process c) (ProcessState c).
Definition set_SysProcAttr (c : Cmd) (x : option syscall.SysProcAttr) : Cmd :=
  mkCmd (Path c) (Args c) (Env c) (Stdin c) (Stdout c) (Stderr c)
        x (Process c) (ProcessState c).
Definition set_Process (c : Cmd) (x : option os.Process) : Cmd :=
  mkCmd (Path c) (Args c) (Env c) (Stdin c) (Stdout c) (Stderr c)
        (SysProcAttr c) x (ProcessState c).
Definition set_ProcessState (c : Cmd) (x : option os.ProcessState) : Cmd :=
  mkCmd (Path c) (Args c) (Env c) (Stdin c) (Stdout c) (Stderr c)
        (SysProcAttr c) (Process c) x.

(** What the child finds on one of its three standard descriptors. *)
Inductive binding : Type :=
| DevNull
| Inherit (f : os.File)
| ClosedFd.

(** How [Start] turns a stream of the command into the child's
    descriptor: the null device for the nil interface, the file itself
    for a [*os.File], whose [Fd] is the invalid descriptor when the
    pointer is nil, which the child then closes. *)
Definition childFile (s : stream) : binding :=
  match s with
  | no_stream => DevNull
  | file (Some f) => Inherit f
  | file None => ClosedFd
  end.

End exec.

(** ** The host: what the operating system answers

    The calls of [fork.go] that leave the program are answered by the
    host; each operation below takes the host it runs on. *)

Record Host : Type := mkHost {
  os_Args0 : string;                                  (* os.Args[0] *)
  os_Executable : string * option error;
  os_Environ : list string;
  ioutil_TempFile : string -> string -> os.File + error;
  os_StartProcess : exec.Cmd -> os.Process + error;
  Process_Wait : os.Process -> os.ProcessState + error
}.

(** What an operation does to the world outside the descriptor. *)
Inductive event : Type :=
| Created (af : os.File)
| Encoded (af : os.File) (v : reflect.value)
| Closed (af : os.File)
| Started (c : exec.Cmd) (p : os.Process)
| Reaped (p : os.Process) (st : os.ProcessState).

(** [Cmd.Start]: a command that has a process was already
    started; otherwise the host starts the child from the command as it
    stands, and the command records the process. *)
Definition Cmd_Start (h : Host) (c : exec.Cmd)
  : exec.Cmd * list event * option error :=
  match exec.Process c with
  | Some _ => (c, [], Some (Errorf "exec: already started"))
  | None =>
      match os_StartProcess h c with
      | inl p => (exec.set_Process c (Some p), [Started c p], None)
      | inr e => (c, [], Some e)
      end
  end.

(** [Cmd.Wait]: fails on a command that was not started or was
    waited for before; otherwise the host reaps the process, the command
    records its state, and an exit that is not a success is an
    [ExitError]. *)
Definition Cmd_Wait (h : Host) (c : exec.Cmd)
  : exec.Cmd * list event * option error :=
  match exec.Process c with
  | None => (c, [], Some (Errorf "exec: not started"))
  | Some p =>
      match exec.ProcessState c with
      | Some _ => (c, [], Some (Errorf "exec: Wait was already called"))
      | None =>
          match Process_Wait h p with
          | inl st =>
              (exec.set_ProcessState c (Some st), [Reaped p st],
               if os.Success st then None
               else Some (ExitError (os.ExitCode st)))
          | inr e => (c, [], Some e)
          end
      end
  end.

(** ** The descriptor *)

Record Function : Type := mkFunction {
  SysProcAttr : option syscall.SysProcAttr;
  Process : option os.Process;
  ProcessState : option os.ProcessState;
  Name : string;
  Stdout : option os.File;
  Stderr : option os.File;
  Stdin : option os.File;
  Command : exec.Cmd;
  fn : reflect.value
}.

(** [Function{}] *)
Definition zero_Function : Function :=
  mkFunction None None None "" None None None exec.zero reflect.nil_value.

Definition set_Process (f : Function) (x : option os.Process) : Function :=
  mkFunction (SysProcAttr f) x (ProcessState f) (Name f)
             (Stdout f) (Stderr f) (Stdin f) (Command f) (fn f).
Definition set_ProcessState (f : Function) (x : option os.ProcessState)
  : Function :=
  mkFunction (SysProcAttr f) (Process f) x (Name f)
             (Stdout f) (Stderr f) (Stdin f) (Command f) (fn f).
Definition set_Name (f : Function) (x : string) : Function :=
  mkFunction (SysProcAttr f) (Process f) (ProcessState f) x
             (Stdout f) (Stderr f) (Stdin f) (Command f) (fn f).
Definition set_Command (f : Function) (x : exec.Cmd) : Function :=
  mkFunction (SysProcAttr f) (Process f) (ProcessState f) (Name f)
             (Stdout f) (Stderr f) (Stdin f) x (fn f).
Definition set_fn (f : Function) (x : reflect.value) : Function :=
  mkFunction (SysProcAttr f) (Process f) (ProcessState f) (Name f)
             (Stdout f) (Stderr f) (Stdin f) (Command f) x.

(** The stream fields, which a caller sets between construction and
    launch. *)
Definition set_streams (f : Function) (i o e : option os.File) : Function :=
  mkFunction (SysProcAttr f) (Process f) (ProcessState f) (Name f)
             o e i (Command f) (fn f).

(** ** Methods on the descriptor

    A method has a pointer receiver: it runs on the descriptor, leaves it
    changed, acts on the world, and returns or panics.  The descriptor
    and the events so far survive a panic. *)

Definition M (A : Type) : Type :=
  Function -> Function * list event * result A.

Definition ret {A} (a : A) : M A := fun f => (f, [], Ret a).

Definition bind {A B} (m : M A) (k : A -> M B) : M B :=
  fun f =>
    let '(f1, tr1, r) := m f in
    match r with
    | Panic msg => (f1, tr1, Panic msg)
    | Ret a => let '(f2, tr2, r2) := k a f1 in (f2, tr1 ++ tr2, r2)
    end.

Notation "x <- m ;; k" := (bind m (fun x => k))
  (at level 61, m at next level, right associativity).
Notation "m ;; k" := (bind m (fun _ => k))
  (at level 61, right associativity).

(** The receiver *)
Definition this : M Function := fun f => (f, [], Ret f).

(** A call that neither changes the descriptor nor acts on the world. *)
Definition pure {A} (r : result A) : M A := fun f => (f, [], r).

(** An assignment to a field of the descriptor. *)
Definition assign (upd : Function -> Function) : M unit :=
  fun f => (upd f, [], Ret tt).

(** An assignment to a field of [f.Command]. *)
Definition assign_Command (upd : Function -> exec.Cmd -> exec.Cmd) : M unit :=
  assign (fun f => set_Command f (upd f (Command f))).

(** An action on the world *)
Definition emit (e : event) : M unit := fun f => (f, [e], Ret tt).

(** A call of a method of [f.Command]. *)
Definition call_Command
  (m : exec.Cmd -> exec.Cmd * list event * option error) : M (option error) :=
  fun f => let '(c, tr, e) := m (Command f) in (set_Command f c, tr, Ret e).

(** [ioutil.TempFile]: the new file, open, or nil and the error. *)
Definition TempFile (h : Host) (dir pattern : string)
  : M (option os.File * option error) :=
  match ioutil_TempFile h dir pattern with
  | inl af => _ <- emit (Created af) ;; ret (Some af, None)
  | inr e => ret (None, Some e)
  end.

(** [for _, iv := range args { enc.EncodeValue(reflect.ValueOf(iv)) }]
    for the encoder [enc] on the file [af]; what [EncodeValue] returns is
    dropped. *)
Fixpoint encode_args (af : os.File) (args : list reflect.value) : M unit :=
  match args with
  | [] => ret tt
  | iv :: rest => _ <- emit (Encoded af iv) ;; encode_args af rest
  end.

(** [NewFork]: nil is [None]. *)
Definition NewFork (h : Host) (n : string) (fn0 : reflect.value)
  (args : list string) : option Function :=
  let f := zero_Function in
  let f := set_Command f exec.zero in
  let f := set_Command f (exec.set_Path (Command f) (fst (os_Executable h))) in
  let f := set_Command f (exec.set_Args (Command f) args) in
  let f := set_Command f (exec.set_Stderr (Command f) (exec.file os.Stderr)) in
  let f := set_Command f (exec.set_Stdout (Command f) (exec.file os.Stdout)) in
  let f := set_Command f (exec.set_Stdin (Command f) (exec.file os.Stdin)) in
  let f := if Nat.eqb (length args) 0
           then set_Command f (exec.set_Args (Command f) [os_Args0 h])
           else f in
  let f := set_fn f fn0 in
  if negb (reflect.Kind_beq (reflect.Value_Kind (fn f)) reflect.Func)
  then None
  else
    let f := set_Name f n in
    Some f.

(** [args[i]] *)
Definition index (args : list reflect.value) (i : nat) : result reflect.value :=
  match nth_error args i with
  | Some a => Ret a
  | None => Panic "runtime error: index out of range"
  end.

(** The loop of [validateArgs] from index [i], with [rest] iterations to
    go before [i] reaches [t.NumIn()]. *)
Fixpoint validateArgs_loop (t : reflect.rtype) (args : list reflect.value)
  (rest i : nat) : result (option error) :=
  match rest with
  | O => Ret None
  | S rest' =>
      let? p := reflect.In t i in
      let? a := index args i in
      let? ka := reflect.Type_Kind (reflect.TypeOf a) in
      if negb (reflect.Kind_beq (reflect.kind p) ka)
      then Ret (Some (Errorf ("argument mismatch (1) "
                                ++ reflect.Kind_String ka ++ " != "
                                ++ reflect.Kind_String (reflect.kind p))%string))
      else validateArgs_loop t args rest' (S i)
  end.

Definition validateArgs (f : Function) (args : list reflect.value)
  : result (option error) :=
  let? t := reflect.Value_Type (fn f) in
  let? n := reflect.NumIn t in
  if negb (Nat.eqb (length args) n)
  then Ret (Some (Errorf ("incorrect number of args for: "
                            ++ reflect.Type_String t)%string))
  else validateArgs_loop t args n 0.

(** [Wait] *)
Definition Wait (h : Host) : M (option error) :=
  err <- call_Command (Cmd_Wait h) ;;
  match err with
  | Some _ => ret err
  | None =>
      assign (fun f => set_ProcessState f (exec.ProcessState (Command f))) ;;
      ret err
  end.

Section Launch.

(** The names of the two environment variables of the argument
    channel: package constants that [fork.go] uses and does not
    declare. *)
Variables nameVar argsVar : string.

(** The encoder loop and [af.Close()].  Both are reached with the file
    that [TempFile] opened; through a nil file every write and the
    close fail with an error that is dropped. *)
Definition write_args (af : option os.File) (args : list reflect.value)
  : M unit :=
  match af with
  | Some a => encode_args a args ;; emit (Closed a)
  | None => ret tt
  end.

(** [Fork] *)
Definition Fork (h : Host) (args : list reflect.value) : M (option error) :=
  err <- (f <- this ;; pure (validateArgs f args)) ;;
  match err with
  | Some _ => ret err
  | None =>
      assign_Command (fun f c => exec.set_Stderr c (exec.file (Stderr f))) ;;
      assign_Command (fun f c => exec.set_Stdout c (exec.file (Stdout f))) ;;
      assign_Command (fun f c => exec.set_Stdin c (exec.file (Stdin f))) ;;
      assign_Command (fun f c => exec.set_SysProcAttr c (SysProcAttr f)) ;;
      assign_Command (fun _ c => exec.set_Env c (os_Environ h)) ;;
      assign_Command (fun f c =>
        exec.set_Env c (exec.Env c ++ [(nameVar ++ "=" ++ Name f)%string])) ;;
      r <- TempFile h "" "gofork_*" ;;
      let '(af, err) := r in
      path <- pure (os.File_Name af) ;;
      assign_Command (fun _ c =>
        exec.set_Env c (exec.Env c ++ [(argsVar ++ "=" ++ path)%string])) ;;
      match err with
      | Some _ => ret err
      | None =>
          write_args af args ;;
          err <- call_Command (Cmd_Start h) ;;
          match err with
          | Some _ => ret err
          | None =>
              assign (fun f => set_Process f (exec.Process (Command f))) ;;
              ret err
          end
      end
  end.

(** [ReFork] *)
Definition ReFork (h : Host) (args : list reflect.value) : M (option error) :=
  f0 <- this ;;
  let previous := Command f0 in
  assign (fun f => set_Command f exec.zero) ;;
  assign_Command (fun _ c => exec.set_Path c (fst (os_Executable h))) ;;
  assign_Command (fun _ c => exec.set_Args c (exec.Args previous)) ;;
  assign_Command (fun f c => exec.set_Stderr c (exec.file (Stderr f))) ;;
  assign_Command (fun f c => exec.set_Stdout c (exec.file (Stdout f))) ;;
  assign_Command (fun f c => exec.set_Stdin c (exec.file (Stdin f))) ;;
  assign_Command (fun f c => exec.set_SysProcAttr c (SysProcAttr f)) ;;
  assign_Command (fun _ c => exec.set_Env c (os_Environ h)) ;;
  assign_Command (fun f c =>
    exec.set_Env c (exec.Env c ++ [(nameVar ++ "=" ++ Name f)%string])) ;;
  r <- TempFile h "" "gofork_*" ;;
  let '(af, err) := r in
  path <- pure (os.File_Name af) ;;
  assign_Command (fun _ c =>
    exec.set_Env c (exec.Env c ++ [(argsVar ++ "=" ++ path)%string])) ;;
  match err with
  | Some _ => ret err
  | None =>
      write_args af args ;;
      err <- call_Command (Cmd_Start h) ;;
      match err with
      | Some _ => ret err
      | None =>
          assign (fun f => set_Process f (exec.Process (Command f))) ;;
          ret err
      end
  end.

(** What [Fork] does once validation has passed (its lines 72 to 92):
    steps 2 to 5 of the launch. *)
Definition Fork_steps_2_5 (h : Host) (args : list reflect.value)
  : M (option error) :=
  (* 2: stream bindings and attributes into the configuration *)
  assign_Command (fun f c => exec.set_Stderr c (exec.file (Stderr f))) ;;
  assign_Command (fun f c => exec.set_Stdout c (exec.file (Stdout f))) ;;
  assign_Command (fun f c => exec.set_Stdin c (exec.file (Stdin f))) ;;
  assign_Command (fun f c => exec.set_SysProcAttr c (SysProcAttr f)) ;;
  (* 3: the environment and the argument file *)
  assign_Command (fun _ c => exec.set_Env c (os_Environ h)) ;;
  assign_Command (fun f c =>
    exec.set_Env c (exec.Env c ++ [(nameVar ++ "=" ++ Name f)%string])) ;;
  r <- TempFile h "" "gofork_*" ;;
  let '(af, err) := r in
  path <- pure (os.File_Name af) ;;
  assign_Command (fun _ c =>
    exec.set_Env c (exec.Env c ++ [(argsVar ++ "=" ++ path)%string])) ;;
  match err with
  | Some _ => ret err
  | None =>
      (* 4: the arguments, in order, then close *)
      write_args af args ;;
      (* 5: start, and record the handle *)
      err <- call_Command (Cmd_Start h) ;;
      match err with
      | Some _ => ret err
      | None =>
          assign (fun f => set_Process f (exec.Process (Command f))) ;;
          ret err
      end
  end.

(** The process configuration [ReFork] starts from: a new [exec.Cmd]
    with the path of the running executable and the argument vector of
    the command it replaces. *)
Definition fresh_Command (h : Host) (argv : list string) : exec.Cmd :=
  exec.set_Args (exec.set_Path exec.zero (fst (os_Executable h))) argv.

(** A use of the descriptor by its caller *)
Inductive call : Type :=
| call_Fork (args : list reflect.value)
| call_ReFork (args : list reflect.value)
| call_Wait.

Definition do_call (h : Host) (c : call) : M (option error) :=
  match c with
  | call_Fork args => Fork h args
  | call_ReFork args => ReFork h args
  | call_Wait => Wait h
  end.

(** The descriptor after a sequence of calls, each on the host of its
    moment, whatever each call returned; a panic is taken as recovered
    by the caller. *)
Fixpoint run (cs : list (Host * call)) (f : Function) : Function :=
  match cs with
  | [] => f
  | (h, c) :: rest => run rest (fst (fst (do_call h c f)))
  end.

End Launch.

(** The children an operation started, with the configuration of each. *)
Fixpoint started (tr : list event) : list (exec.Cmd * os.Process) :=
  match tr with
  | [] => []
  | Started c p :: rest => (c, p) :: started rest
  | _ :: rest => started rest
  end.

(** The values an operation encoded into the file [af], in order. *)
Fixpoint payload (af : os.File) (tr : list event) : list reflect.value :=
  match tr with
  | [] => []
  | Encoded a v :: rest =>
      if (String.eqb (os.name a) (os.name af) && (os.fd a =? os.fd af)%Z)%bool
      then v :: payload af rest
      else payload af rest
  | _ :: rest => payload af rest
  end.

(** The kind [validateArgs] reads off an argument, when it has one. *)
Definition kind_of (a : reflect.value) : option reflect.Kind :=
  option_map reflect.kind (reflect.TypeOf a).

(** An argument passes at a parameter: it has a type, of the kind of the
    parameter. *)
Definition kind_matches (p : reflect.rtype) (a : reflect.value) : Prop :=
  kind_of a = Some (reflect.kind p).

(** ** A program and two hosts to run the operations on *)

Module Sample.

Definition int_t : reflect.rtype := reflect.mkType reflect.Int "int" [].
Definition string_t : reflect.rtype :=
  reflect.mkType reflect.String "string" [].

(** [type A struct{ X int }] and [type B struct{ S string }] *)
Definition A_t : reflect.rtype := reflect.mkType reflect.Struct "main.A" [].
Definition B_t : reflect.rtype := reflect.mkType reflect.Struct "main.B" [].

(** [func worker(a int, b string)] *)
Definition worker_t : reflect.rtype :=
  reflect.mkType reflect.Func "func(int, string)" [int_t; string_t].
Definition worker : reflect.value := reflect.Val worker_t (reflect.DRef 1).

(** [func pair(a int, b int)] *)
Definition pair_t : reflect.rtype :=
  reflect.mkType reflect.Func "func(int, int)" [int_t; int_t].
Definition pair : reflect.value := reflect.Val pair_t (reflect.DRef 2).

(** [func takesA(a A)] *)
Definition takesA_t : reflect.rtype :=
  reflect.mkType reflect.Func "func(main.A)" [A_t].
Definition takesA : reflect.value := reflect.Val takesA_t (reflect.DRef 3).

Definition int_v (n : Z) : reflect.value := reflect.Val int_t (reflect.DInt n).
Definition string_v (s : string) : reflect.value :=
  reflect.Val string_t (reflect.DString s).
Definition A_v : reflect.value := reflect.Val A_t (reflect.DRef 10).
Definition B_v : reflect.value := reflect.Val B_t (reflect.DRef 11).

Definition nameVar : string := "GOFORK_NAME".
Definition argsVar : string := "GOFORK_ARGS".

Definition argfile : os.File := os.mkFile "/tmp/gofork_271828" 3.
Definition child : os.Process := os.mkProcess 4242.

(** A host on which everything succeeds. *)
Definition host : Host :=
  mkHost "./prog" ("/usr/local/bin/prog", None)
         ["PATH=/usr/bin"; "HOME=/root"]
         (fun _ _ => inl argfile)
         (fun _ => inl child)
         (fun p => inl (os.mkProcessState (os.Pid p) 0)).

(** The same host with a temporary directory that cannot be written. *)
Definition host_no_tmp : Host :=
  mkHost "./prog" ("/usr/local/bin/prog", None)
         ["PATH=/usr/bin"; "HOME=/root"]
         (fun _ _ => inr (os_error "open /tmp/gofork_271828: permission denied"))
         (fun _ => inl child)
         (fun p => inl (os.mkProcessState (os.Pid p) 0)).

(** The same host unable to start a child. *)
Definition host_no_exec : Host :=
  mkHost "./prog" ("/usr/local/bin/prog", None)
         ["PATH=/usr/bin"; "HOME=/root"]
         (fun _ _ => inl argfile)
         (fun _ => inr (os_error "fork/exec /usr/local/bin/prog: permission denied"))
         (fun p => inl (os.mkProcessState (os.Pid p) 0)).

(** [NewFork("worker", worker)], or the zero descriptor if that is nil. *)
Definition descriptor : Function :=
  match NewFork host "worker" worker [] with
  | Some f => f
  | None => zero_Function
  end.

Definition pair_descriptor : Function :=
  match NewFork host "pair" pair [] with
  | Some f => f
  | None => zero_Function
  end.

(** The descriptor after the caller has bound its standard output to a
    file of its own and launched it with [(3, "x")]. *)
Definition launched : Function :=
  fst (fst (Fork nameVar argsVar host [int_v 3; string_v "x"]
              (set_streams descriptor None (Some argfile) None))).



(** The host on which the child exits with status 1. *)
Definition host_exit_1 : Host :=
  mkHost "./prog" ("/usr/local/bin/prog", None)
         ["PATH=/usr/bin"; "HOME=/root"]
         (fun _ _ => inl argfile)
         (fun _ => inl child)
         (fun p => inl (os.mkProcessState (os.Pid p) 1)).

End Sample.

(** ** Definitions for the proofs *)

(** The loop of [validateArgs] on the parameters and the arguments that
    are left, in step. *)
Fixpoint check_kinds (ps : list reflect.rtype) (args : list reflect.value)
  : result (option error) :=
  match ps, args with
  | [], _ => Ret None
  | _ :: _, [] => Panic "runtime error: index out of range"
  | p :: ps', a :: args' =>
      let? ka := reflect.Type_Kind (reflect.TypeOf a) in
      if negb (reflect.Kind_beq (reflect.kind p) ka)
      then Ret (Some (Errorf ("argument mismatch (1) "
                                ++ reflect.Kind_String ka ++ " != "
                                ++ reflect.Kind_String (reflect.kind p))%string))
      else check_kinds ps' args'
  end.

(** The command of [f] once lines 72 to 77 of [Fork] have run. *)
Definition configured (nameVar : string) (h : Host) (f : Function) : exec.Cmd :=
  exec.mkCmd (exec.Path (Command f)) (exec.Args (Command f))
             (os_Environ h ++ [(nameVar ++ "=" ++ Name f)%string])
             (exec.file (Stdin f)) (exec.file (Stdout f)) (exec.file (Stderr f))
             (SysProcAttr f)
             (exec.Process (Command f)) (exec.ProcessState (Command f)).

(** The command that [Fork] hands to [Start] when the argument file is
    [af]. *)
Definition launch_Command (nameVar argsVar : string) (h : Host) (f : Function)
  (af : os.File) : exec.Cmd :=
  exec.set_Env (configured nameVar h f)
               (exec.Env (configured nameVar h f)
                  ++ [(argsVar ++ "=" ++ os.name af)%string]).

(** What [Fork] does to the world up to [Start]. *)
Definition channel_events (af : os.File) (args : list reflect.value)
  : list event :=
  Created af :: map (Encoded af) args ++ [Closed af].


(** In a state the calls can reach, a process in the command is the
    process of the handle. *)
Definition handle_inv (f : Function) : Prop :=
  exec.Process (Command f) <> None ->
  Process f = exec.Process (Command f).

(** What no call changes: the name, the target, the streams and the
    attributes of the descriptor, and the argument vector of its
    command. *)
Definition same_configuration (f f' : Function) : Prop :=
  Name f' = Name f /\ fn f' = fn f /\
  Stdin f' = Stdin f /\ Stdout f' = Stdout f /\ Stderr f' = Stderr f /\
  SysProcAttr f' = SysProcAttr f /\
  exec.Args (Command f') = exec.Args (Command f).


(** ** Validation *)

Section Validation.

Lemma nth_error_split {A} (pre : list A) (x : A) (post : list A) (i : nat) :
  length pre = i -> nth_error (pre ++ x :: post) i = Some x.
Proof.
  intros <-. rewrite nth_error_app2 by lia.
  now rewrite Nat.sub_diag.
Qed.

Lemma validateArgs_loop_check_kinds (t : reflect.rtype)
  (args : list reflect.value) :
  reflect.kind t = reflect.Func ->
  forall ps_left args_left ps_done args_done i,
    reflect.params t = ps_done ++ ps_left ->
    args = args_done ++ args_left ->
    length ps_done = i -> length args_done = i ->
    length ps_left = length args_left ->
    validateArgs_loop t args (length ps_left) i = check_kinds ps_left args_left.
Proof.
  intros Hfunc ps_left.
  induction ps_left as [|p ps_left IH];
    intros args_left ps_done args_done i Hps Hargs Hi Hj Hlen.
  - reflexivity.
  - destruct args_left as [|a args_left]; [discriminate|].
    cbn [length validateArgs_loop check_kinds].
    assert (Hp : nth_error (reflect.params t) i = Some p)
      by (rewrite Hps; now apply nth_error_split).
    assert (Ha : nth_error args i = Some a)
      by (rewrite Hargs; now apply nth_error_split).
    unfold reflect.In, index. rewrite Hfunc, Hp, Ha.
    cbn [result_bind].
    destruct (reflect.Type_Kind (reflect.TypeOf a)) as [ka|msg];
      cbn [result_bind]; [|reflexivity].
    destruct (negb (reflect.Kind_beq (reflect.kind p) ka)); [reflexivity|].
    apply (IH args_left (ps_done ++ [p]) (args_done ++ [a]) (S i)).
    + now rewrite <- app_assoc.
    + now rewrite <- app_assoc.
    + rewrite length_app; cbn; lia.
    + rewrite length_app; cbn; lia.
    + cbn in Hlen; lia.
Qed.

(** [validateArgs] on a descriptor whose target is a function. *)
Lemma validateArgs_Func (f : Function) (args : list reflect.value)
  (t : reflect.rtype) (d : reflect.data) :
  fn f = reflect.Val t d -> reflect.kind t = reflect.Func ->
  validateArgs f args =
    if Nat.eqb (length args) (length (reflect.params t))
    then check_kinds (reflect.params t) args
    else Ret (Some (Errorf ("incorrect number of args for: "
                              ++ reflect.Type_String t)%string)).
Proof.
  intros Hfn Hfunc. unfold validateArgs.
  rewrite Hfn. cbn [reflect.Value_Type result_bind].
  unfold reflect.NumIn. rewrite Hfunc. cbn [result_bind].
  destruct (Nat.eqb_spec (length args) (length (reflect.params t)))
    as [Hlen|Hlen]; cbn [negb]; [|reflexivity].
  apply (validateArgs_loop_check_kinds t args Hfunc
           (reflect.params t) args [] [] 0); auto.
Qed.

Lemma Kind_beq_refl (k : reflect.Kind) : reflect.Kind_beq k k = true.
Proof. now destruct k. Qed.

Lemma Kind_beq_neq (k k' : reflect.Kind) :
  k <> k' -> reflect.Kind_beq k k' = false.
Proof.
  intros Hneq. destruct (reflect.Kind_beq k k') eqn:E; [|reflexivity].
  destruct k, k'; try discriminate E; now elim Hneq.
Qed.

Lemma kind_of_Type_Kind (a : reflect.value) (k : reflect.Kind) :
  kind_of a = Some k -> reflect.Type_Kind (reflect.TypeOf a) = Ret k.
Proof.
  unfold kind_of. destruct a as [|t d]; cbn; [discriminate|].
  now intros [= <-].
Qed.

Lemma check_kinds_pass (ps : list reflect.rtype) (args : list reflect.value) :
  Forall2 kind_matches ps args -> check_kinds ps args = Ret None.
Proof.
  induction 1 as [|p a ps args Hpa _ IH]; [reflexivity|].
  cbn [check_kinds]. rewrite (kind_of_Type_Kind _ _ Hpa).
  cbn [result_bind]. now rewrite Kind_beq_refl.
Qed.

(** The arguments before the first one that fails are passed over. *)
Lemma check_kinds_skip (ps_ok : list reflect.rtype)
  (args_ok : list reflect.value) ps args :
  Forall2 kind_matches ps_ok args_ok ->
  check_kinds (ps_ok ++ ps) (args_ok ++ args) = check_kinds ps args.
Proof.
  induction 1 as [|p a ps_ok args_ok Hpa _ IH]; [reflexivity|].
  cbn [app check_kinds]. rewrite (kind_of_Type_Kind _ _ Hpa).
  cbn [result_bind]. now rewrite Kind_beq_refl.
Qed.

Lemma split_lengths {A B} (xs : list A) (x : A) (xs' : list A)
  (ys : list B) (y : B) (ys' : list B) :
  length xs = length ys -> length xs' = length ys' ->
  Nat.eqb (length (ys ++ y :: ys')) (length (xs ++ x :: xs')) = true.
Proof.
  intros H H'. apply Nat.eqb_eq. rewrite !length_app. cbn. lia.
Qed.

End Validation.

(** ** The launch, case by case *)

Section Protocol.

Variables nameVar argsVar : string.

Lemma encode_args_run (af : os.File) (args : list reflect.value)
  (f : Function) :
  encode_args af args f = (f, map (Encoded af) args, Ret tt).
Proof.
  induction args as [|iv args IH]; [reflexivity|].
  cbn [encode_args map]. unfold bind, emit. now rewrite IH.
Qed.

Lemma write_args_run (af : os.File) (args : list reflect.value)
  (f : Function) :
  write_args (Some af) args f = (f, map (Encoded af) args ++ [Closed af], Ret tt).
Proof.
  unfold write_args, bind, emit. now rewrite encode_args_run.
Qed.

Lemma bind_this {A} (k : Function -> M A) (f : Function) :
  bind this k f = k f f.
Proof.
  unfold bind, this. now destruct (k f f) as [[f' tr] r].
Qed.

Lemma bind_assign {A} (upd : Function -> Function) (k : unit -> M A)
  (f : Function) :
  bind (assign upd) k f = k tt (upd f).
Proof.
  unfold bind, assign. now destruct (k tt (upd f)) as [[f' tr] r].
Qed.

Ltac run_steps :=
  unfold Fork_steps_2_5, TempFile, bind, assign_Command, assign, pure, ret,
    emit, this, call_Command, Cmd_Start.

(** Without an argument file the launch stops in [af.Name()]. *)
Lemma Fork_steps_2_5_no_tmp (h : Host) (args : list reflect.value)
  (f : Function) (e : error) :
  ioutil_TempFile h "" "gofork_*" = inr e ->
  Fork_steps_2_5 nameVar argsVar h args f
  = (set_Command f (configured nameVar h f), [], Panic nil_dereference).
Proof.
  intros Htmp. run_steps. rewrite Htmp. reflexivity.
Qed.

(** With an argument file the outcome is that of [Start]. *)
Lemma Fork_steps_2_5_tmp (h : Host) (args : list reflect.value)
  (f : Function) (af : os.File) :
  ioutil_TempFile h "" "gofork_*" = inl af ->
  Fork_steps_2_5 nameVar argsVar h args f
  = let c := launch_Command nameVar argsVar h f af in
    match exec.Process (Command f) with
    | Some _ =>
        (set_Command f c, channel_events af args,
         Ret (Some (Errorf "exec: already started")))
    | None =>
        match os_StartProcess h c with
        | inl p =>
            (set_Process (set_Command f (exec.set_Process c (Some p))) (Some p),
             channel_events af args ++ [Started c p], Ret None)
        | inr e => (set_Command f c, channel_events af args, Ret (Some e))
        end
    end.
Proof.
  intros Htmp. run_steps. rewrite Htmp.
  cbn -[write_args app]. rewrite write_args_run.
  cbn -[app].
  destruct (exec.Process (Command f)) as [p0|]; cbn -[app].
  - rewrite ?app_nil_r. reflexivity.
  - change (exec.set_Env _ (_ ++ [(argsVar ++ _ )%string]))
      with (launch_Command nameVar argsVar h f af).
    destruct (os_StartProcess h (launch_Command nameVar argsVar h f af))
      as [p|e]; cbn -[app]; rewrite ?app_nil_r.
    + unfold channel_events. cbn [app]. rewrite <- app_assoc. reflexivity.
    + reflexivity.
Qed.

(** [Fork] is validation, then steps 2 to 5 when it passes. *)
Lemma Fork_unfold (h : Host) (args : list reflect.value) (f : Function) :
  Fork nameVar argsVar h args f
  = match validateArgs f args with
    | Ret None => Fork_steps_2_5 nameVar argsVar h args f
    | Ret (Some e) => (f, [], Ret (Some e))
    | Panic msg => (f, [], Panic msg)
    end.
Proof.
  change (Fork nameVar argsVar h args f)
    with (bind (bind this (fun f0 => pure (validateArgs f0 args)))
            (fun err => match err with
                        | Some _ => ret err
                        | None => Fork_steps_2_5 nameVar argsVar h args
                        end) f).
  unfold bind, this, pure, ret.
  destruct (validateArgs f args) as [[e|]|msg]; try reflexivity.
  now destruct (Fork_steps_2_5 nameVar argsVar h args f) as [[f' tr] r].
Qed.

(** [ReFork] is steps 2 to 5 on a descriptor with a new command. *)
Lemma ReFork_unfold (h : Host) (args : list reflect.value) (f : Function) :
  ReFork nameVar argsVar h args f
  = Fork_steps_2_5 nameVar argsVar h args
      (set_Command f (fresh_Command h (exec.Args (Command f)))).
Proof.
  unfold ReFork. rewrite bind_this, bind_assign.
  unfold assign_Command at 1. rewrite bind_assign.
  unfold assign_Command at 1. rewrite bind_assign.
  reflexivity.
Qed.

End Protocol.

(** ** Construction *)

(** C9: for a target that is not a function value [NewFork] returns nil,
    so that no descriptor, initialised in part or in whole, is handed out;
    for a function value it returns a descriptor bound to the given name
    and to that target. *)
Theorem NewFork_checks_target (h : Host) (n : string) (target : reflect.value)
  (argv : list string) :
  (reflect.Value_Kind target <> reflect.Func ->
   NewFork h n target argv = None) /\
  (reflect.Value_Kind target = reflect.Func ->
   exists f, NewFork h n target argv = Some f /\ Name f = n /\ fn f = target).
Proof.
  unfold NewFork. cbn [fn set_fn]. split; intros Hkind.
  - now rewrite (Kind_beq_neq _ _ Hkind).
  - rewrite Hkind. cbn [reflect.Kind_beq negb].
    eexists. split; [reflexivity|]. split; reflexivity.
Qed.

Lemma NewFork_checks_target_witness :
  NewFork Sample.host "worker" (Sample.int_v 3) [] = None /\
  NewFork Sample.host "worker" reflect.nil_value [] = None /\
  exists f, NewFork Sample.host "worker" Sample.worker [] = Some f
            /\ Name f = "worker" /\ fn f = Sample.worker.
Proof.
  split; [|split].
  - apply (NewFork_checks_target Sample.host "worker" (Sample.int_v 3) []).
    discriminate.
  - apply (NewFork_checks_target Sample.host "worker" reflect.nil_value []).
    discriminate.
  - apply (NewFork_checks_target Sample.host "worker" Sample.worker []).
    reflexivity.
Defined.

(** ** Validation at the public interface *)

(** C5: on a descriptor whose target has N parameters, [Fork] with a list
    of M arguments, M different from N, returns the error "incorrect
    number of args for: " followed by the signature of the target; the
    descriptor is left as it was and nothing is done to the world, so no
    process is started. *)
Theorem Fork_arity_error (nameVar argsVar : string) (h : Host) (f : Function)
  (args : list reflect.value) (t : reflect.rtype) (d : reflect.data) :
  fn f = reflect.Val t d ->
  reflect.kind t = reflect.Func ->
  length args <> length (reflect.params t) ->
  Fork nameVar argsVar h args f
  = (f, [], Ret (Some (Errorf ("incorrect number of args for: "
                                 ++ reflect.Type_String t)%string))).
Proof.
  intros Hfn Hfunc Hlen.
  rewrite Fork_unfold, (validateArgs_Func f args t d Hfn Hfunc).
  apply Nat.eqb_neq in Hlen. now rewrite Hlen.
Qed.

Lemma Fork_arity_error_witness :
  Fork Sample.nameVar Sample.argsVar Sample.host [Sample.int_v 3]
       Sample.descriptor
  = (Sample.descriptor, [],
     Ret (Some (Errorf "incorrect number of args for: func(int, string)"))).
Proof.
  apply (Fork_arity_error Sample.nameVar Sample.argsVar Sample.host
           Sample.descriptor [Sample.int_v 3] Sample.worker_t (reflect.DRef 1)).
  - reflexivity.
  - reflexivity.
  - cbn. discriminate.
Defined.

(** C6: validation reads nothing of an argument but its kind.  When the
    arguments are as many as the parameters and each has the kind of its
    parameter, validation passes, whatever the types are; and two argument
    lists with the same kinds, position by position, get the same
    verdict. *)
Theorem validateArgs_compares_kinds_only (f : Function)
  (args : list reflect.value) (t : reflect.rtype) (d : reflect.data) :
  fn f = reflect.Val t d ->
  reflect.kind t = reflect.Func ->
  (Forall2 kind_matches (reflect.params t) args -> validateArgs f args = Ret None)
  /\
  (forall args', map kind_of args' = map kind_of args ->
                 validateArgs f args' = validateArgs f args).
Proof.
  intros Hfn Hfunc. split.
  - intros Hall.
    rewrite (validateArgs_Func f args t d Hfn Hfunc).
    rewrite (Forall2_length Hall), Nat.eqb_refl.
    now apply check_kinds_pass.
  - intros args' Hkinds.
    rewrite !(validateArgs_Func f _ t d Hfn Hfunc).
    assert (Hlen : length args' = length args)
      by (rewrite <- (length_map kind_of args'), Hkinds; apply length_map).
    rewrite Hlen.
    destruct (Nat.eqb (length args) (length (reflect.params t)));
      [|reflexivity].
    clear Hlen. revert args args' Hkinds.
    induction (reflect.params t) as [|p ps IH]; intros args args' Hkinds.
    + reflexivity.
    + destruct args as [|a args], args' as [|a' args'];
        try discriminate Hkinds; [reflexivity|].
      cbn [map] in Hkinds. injection Hkinds as Ha Hrest.
      cbn [check_kinds].
      replace (reflect.Type_Kind (reflect.TypeOf a'))
        with (reflect.Type_Kind (reflect.TypeOf a)).
      * rewrite (IH args args' Hrest). reflexivity.
      * unfold kind_of in Ha.
        destruct a as [|ta da], a' as [|ta' da']; cbn in Ha |- *;
          try discriminate Ha; [reflexivity|].
        now injection Ha as ->.
Qed.

Lemma validateArgs_compares_kinds_only_witness :
  Sample.A_t <> Sample.B_t /\
  validateArgs
    (match NewFork Sample.host "takesA" Sample.takesA [] with
     | Some f => f
     | None => zero_Function
     end)
    [Sample.B_v]
  = Ret None.
Proof.
  split; [discriminate|].
  apply (validateArgs_compares_kinds_only _ [Sample.B_v]
           Sample.takesA_t (reflect.DRef 3)).
  - reflexivity.
  - reflexivity.
  - repeat constructor.
Defined.

(** C2, as amended: when the arguments are as many as the parameters, the
    arguments before some position each have the kind of their parameter,
    and the argument at that position has a kind other than its
    parameter's, [Fork] returns the error "argument mismatch (1) " with
    the kind of the argument, " != " and the kind of the parameter; the
    descriptor is left as it was and nothing is done to the world, so no
    process is started.  The text of the error carries the two kinds and
    no position. *)
Theorem Fork_kind_mismatch_error (nameVar argsVar : string) (h : Host)
  (f : Function) (t : reflect.rtype) (d : reflect.data)
  (ps_ok : list reflect.rtype) (p : reflect.rtype) (ps_rest : list reflect.rtype)
  (args_ok : list reflect.value) (a : reflect.value)
  (args_rest : list reflect.value) (ka : reflect.Kind) :
  fn f = reflect.Val t d ->
  reflect.kind t = reflect.Func ->
  reflect.params t = ps_ok ++ p :: ps_rest ->
  Forall2 kind_matches ps_ok args_ok ->
  length ps_rest = length args_rest ->
  kind_of a = Some ka ->
  ka <> reflect.kind p ->
  Fork nameVar argsVar h (args_ok ++ a :: args_rest) f
  = (f, [],
     Ret (Some (Errorf ("argument mismatch (1) "
                          ++ reflect.Kind_String ka ++ " != "
                          ++ reflect.Kind_String (reflect.kind p))%string))).
Proof.
  intros Hfn Hfunc Hps Hok Hrest Hka Hneq.
  rewrite Fork_unfold, (validateArgs_Func f _ t d Hfn Hfunc), Hps.
  rewrite (split_lengths _ _ _ _ _ _ (Forall2_length Hok) Hrest).
  rewrite (check_kinds_skip _ _ _ _ Hok).
  cbn [check_kinds]. rewrite (kind_of_Type_Kind _ _ Hka).
  cbn [result_bind].
  rewrite (Kind_beq_neq (reflect.kind p) ka) by congruence.
  reflexivity.
Qed.

Lemma Fork_kind_mismatch_error_witness :
  Fork Sample.nameVar Sample.argsVar Sample.host
       [Sample.int_v 3; Sample.int_v 4] Sample.descriptor
  = (Sample.descriptor, [],
     Ret (Some (Errorf "argument mismatch (1) int != string"))).
Proof.
  apply (Fork_kind_mismatch_error Sample.nameVar Sample.argsVar Sample.host
           Sample.descriptor Sample.worker_t (reflect.DRef 1)
           [Sample.int_t] Sample.string_t []
           [Sample.int_v 3] (Sample.int_v 4) [] reflect.Int).
  - reflexivity.
  - reflexivity.
  - reflexivity.
  - repeat constructor.
  - reflexivity.
  - reflexivity.
  - discriminate.
Defined.

(** C2 as it was stated fails on the code.  On [func(int, int)] the
    arguments [("x", 3)], wrong at position 0, and [(3, "x")], wrong at
    position 1, are refused with one and the same error, which therefore
    tells no position; and on [func(int, string)] the arguments
    [(3, 4, 5)], whose position 1 has the kind int where string is
    declared, are refused with the error of the argument count. *)
Lemma Fork_kind_mismatch_position_counterexample :
  (snd (Fork Sample.nameVar Sample.argsVar Sample.host
          [Sample.string_v "x"; Sample.int_v 3] Sample.pair_descriptor)
   = Ret (Some (Errorf "argument mismatch (1) string != int"))
   /\
   snd (Fork Sample.nameVar Sample.argsVar Sample.host
          [Sample.int_v 3; Sample.string_v "x"] Sample.pair_descriptor)
   = Ret (Some (Errorf "argument mismatch (1) string != int")))
  /\
  (kind_of (Sample.int_v 4) = Some reflect.Int
   /\ nth_error (reflect.params Sample.worker_t) 1 = Some Sample.string_t
   /\ snd (Fork Sample.nameVar Sample.argsVar Sample.host
             [Sample.int_v 3; Sample.int_v 4; Sample.int_v 5]
             Sample.descriptor)
      = Ret (Some (Errorf "incorrect number of args for: func(int, string)"))).
Proof.
  repeat split; vm_compute; reflexivity.
Qed.

(** C10, as amended: on a descriptor whose target is a function, when the
    arguments are as many as the parameters, one of them is the nil
    interface value and the arguments before it each have the kind of
    their parameter, [validateArgs] calls [Kind] on the nil type of that
    argument and [Fork] panics there: it returns no error value; the
    descriptor is left as it was and nothing is done to the world. *)
Theorem Fork_nil_argument_panics (nameVar argsVar : string) (h : Host)
  (f : Function) (t : reflect.rtype) (d : reflect.data)
  (ps_ok : list reflect.rtype) (p : reflect.rtype) (ps_rest : list reflect.rtype)
  (args_ok args_rest : list reflect.value) :
  fn f = reflect.Val t d ->
  reflect.kind t = reflect.Func ->
  reflect.params t = ps_ok ++ p :: ps_rest ->
  Forall2 kind_matches ps_ok args_ok ->
  length ps_rest = length args_rest ->
  Fork nameVar argsVar h (args_ok ++ reflect.nil_value :: args_rest) f
  = (f, [], Panic nil_dereference).
Proof.
  intros Hfn Hfunc Hps Hok Hrest.
  rewrite Fork_unfold, (validateArgs_Func f _ t d Hfn Hfunc), Hps.
  rewrite (split_lengths _ _ _ _ _ _ (Forall2_length Hok) Hrest).
  rewrite (check_kinds_skip _ _ _ _ Hok).
  reflexivity.
Qed.

Lemma Fork_nil_argument_panics_witness :
  Fork Sample.nameVar Sample.argsVar Sample.host
       [Sample.int_v 3; reflect.nil_value] Sample.descriptor
  = (Sample.descriptor, [], Panic nil_dereference).
Proof.
  apply (Fork_nil_argument_panics Sample.nameVar Sample.argsVar Sample.host
           Sample.descriptor Sample.worker_t (reflect.DRef 1)
           [Sample.int_t] Sample.string_t [] [Sample.int_v 3] []).
  - reflexivity.
  - reflexivity.
  - reflexivity.
  - repeat constructor.
  - reflexivity.
Defined.

(** C10 as it was stated fails on the code: on [func(int, string)] the
    arguments [("x", nil)] are two, the second is the nil interface
    value, and [Fork] returns the mismatch error of position 0 without a
    panic. *)
Lemma Fork_nil_argument_counterexample :
  length [Sample.string_v "x"; reflect.nil_value]
  = length (reflect.params Sample.worker_t)
  /\ In reflect.nil_value [Sample.string_v "x"; reflect.nil_value]
  /\ Fork Sample.nameVar Sample.argsVar Sample.host
          [Sample.string_v "x"; reflect.nil_value] Sample.descriptor
     = (Sample.descriptor, [],
        Ret (Some (Errorf "argument mismatch (1) string != int"))).
Proof.
  split; [reflexivity|]. split; [right; left; reflexivity|].
  vm_compute. reflexivity.
Qed.

(** ** Outcomes of the operations *)

Section Outcomes.

Variables nameVar argsVar : string.

Lemma started_app (tr tr' : list event) :
  started (tr ++ tr') = started tr ++ started tr'.
Proof.
  induction tr as [|e tr IH]; [reflexivity|].
  destruct e; cbn [app started]; now rewrite IH.
Qed.

Lemma started_Encoded (af : os.File) (args : list reflect.value)
  (tr : list event) :
  started (map (Encoded af) args ++ tr) = started tr.
Proof. induction args as [|a args IH]; [reflexivity|exact IH]. Qed.

Lemma started_channel_events (af : os.File) (args : list reflect.value) :
  started (channel_events af args) = [].
Proof.
  unfold channel_events. cbn [started]. now rewrite started_Encoded.
Qed.

Lemma payload_Encoded (af : os.File) (args : list reflect.value)
  (tr : list event) :
  payload af (map (Encoded af) args ++ tr) = args ++ payload af tr.
Proof.
  induction args as [|a args IH]; [reflexivity|].
  cbn [map app payload]. rewrite String.eqb_refl, Z.eqb_refl.
  cbn [andb]. now rewrite IH.
Qed.

Lemma set_Command_same (f : Function) : set_Command f (Command f) = f.
Proof. now destruct f. Qed.

(** Steps 2 to 5 either start exactly one child, from the command of
    the launch, and record its handle, or start none and change nothing
    of the descriptor but fields of its command other than the
    process. *)
Lemma Fork_steps_2_5_outcome (h : Host) (args : list reflect.value)
  (f f' : Function) (tr : list event) (r : result (option error)) :
  Fork_steps_2_5 nameVar argsVar h args f = (f', tr, r) ->
  (r <> Ret None /\ started tr = [] /\
   exists c, f' = set_Command f c /\ exec.Process c = exec.Process (Command f))
  \/
  (exists af p,
      ioutil_TempFile h "" "gofork_*" = inl af /\
      exec.Process (Command f) = None /\
      os_StartProcess h (launch_Command nameVar argsVar h f af) = inl p /\
      tr = channel_events af args
             ++ [Started (launch_Command nameVar argsVar h f af) p] /\
      r = Ret None /\
      f' = set_Process
             (set_Command f
                (exec.set_Process (launch_Command nameVar argsVar h f af)
                   (Some p)))
             (Some p)).
Proof.
  destruct (ioutil_TempFile h "" "gofork_*") as [af|e] eqn:Htmp.
  - rewrite (Fork_steps_2_5_tmp nameVar argsVar h args f af Htmp).
    cbv zeta.
    destruct (exec.Process (Command f)) as [p0|] eqn:Hproc.
    + intros [= <- <- <-]. left.
      split; [discriminate|]. split; [apply started_channel_events|].
      eexists. split; [reflexivity|]. exact Hproc.
    + destruct (os_StartProcess h (launch_Command nameVar argsVar h f af))
        as [p|e] eqn:Hstart.
      * intros [= <- <- <-]. right. exists af, p.
        repeat split; assumption || reflexivity.
      * intros [= <- <- <-]. left.
        split; [discriminate|]. split; [apply started_channel_events|].
        eexists. split; [reflexivity|]. exact Hproc.
  - rewrite (Fork_steps_2_5_no_tmp nameVar argsVar h args f e Htmp).
    intros [= <- <- <-]. left.
    split; [discriminate|]. split; [reflexivity|].
    eexists. split; reflexivity.
Qed.

Lemma Fork_outcome (h : Host) (args : list reflect.value)
  (f f' : Function) (tr : list event) (r : result (option error)) :
  Fork nameVar argsVar h args f = (f', tr, r) ->
  (r <> Ret None /\ started tr = [] /\
   exists c, f' = set_Command f c /\ exec.Process c = exec.Process (Command f))
  \/
  (exists af p,
      validateArgs f args = Ret None /\
      ioutil_TempFile h "" "gofork_*" = inl af /\
      exec.Process (Command f) = None /\
      os_StartProcess h (launch_Command nameVar argsVar h f af) = inl p /\
      tr = channel_events af args
             ++ [Started (launch_Command nameVar argsVar h f af) p] /\
      r = Ret None /\
      f' = set_Process
             (set_Command f
                (exec.set_Process (launch_Command nameVar argsVar h f af)
                   (Some p)))
             (Some p)).
Proof.
  rewrite Fork_unfold.
  destruct (validateArgs f args) as [[e|]|msg] eqn:Hval.
  - intros [= <- <- <-]. left. split; [discriminate|]. split; [reflexivity|].
    exists (Command f). now rewrite set_Command_same.
  - intros Hrun.
    destruct (Fork_steps_2_5_outcome h args f f' tr r Hrun)
      as [Hfail|(af & p & Htmp & Hproc & Hstart & Htr & Hr & Hf')].
    + now left.
    + right. exists af, p. repeat split; assumption.
  - intros [= <- <- <-]. left. split; [discriminate|]. split; [reflexivity|].
    exists (Command f). now rewrite set_Command_same.
Qed.

Lemma ReFork_outcome (h : Host) (args : list reflect.value)
  (f f' : Function) (tr : list event) (r : result (option error)) :
  ReFork nameVar argsVar h args f = (f', tr, r) ->
  let f0 := set_Command f (fresh_Command h (exec.Args (Command f))) in
  (r <> Ret None /\ started tr = [] /\
   exists c, f' = set_Command f c /\ exec.Process c = None)
  \/
  (exists af p,
      ioutil_TempFile h "" "gofork_*" = inl af /\
      os_StartProcess h (launch_Command nameVar argsVar h f0 af) = inl p /\
      tr = channel_events af args
             ++ [Started (launch_Command nameVar argsVar h f0 af) p] /\
      r = Ret None /\
      f' = set_Process
             (set_Command f
                (exec.set_Process (launch_Command nameVar argsVar h f0 af)
                   (Some p)))
             (Some p)).
Proof.
  rewrite ReFork_unfold. intros Hrun f0.
  destruct (Fork_steps_2_5_outcome h args f0 f' tr r Hrun)
    as [(Hr & Htr & c & Hf' & Hc)
       |(af & p & Htmp & Hproc & Hstart & Htr & Hr & Hf')].
  - left. split; [assumption|]. split; [assumption|].
    exists c. split; assumption.
  - right. exists af, p. repeat split; assumption.
Qed.

Lemma Wait_outcome (h : Host) (f f' : Function) (tr : list event)
  (r : result (option error)) :
  Wait h f = (f', tr, r) ->
  (r <> Ret None /\
   exists c, f' = set_Command f c /\ exec.Process c = exec.Process (Command f))
  \/
  (exists p st,
      exec.Process (Command f) = Some p /\
      Process_Wait h p = inl st /\
      os.Success st = true /\
      tr = [Reaped p st] /\
      r = Ret None /\
      f' = set_ProcessState
             (set_Command f (exec.set_ProcessState (Command f) (Some st)))
             (Some st)).
Proof.
  unfold Wait, bind, call_Command, Cmd_Wait, assign, ret.
  destruct (exec.Process (Command f)) as [p|] eqn:Hproc.
  - destruct (exec.ProcessState (Command f)) as [st0|].
    + intros [= <- <- <-]. left. split; [discriminate|].
      eexists. split; [reflexivity|]. exact Hproc.
    + destruct (Process_Wait h p) as [st|e] eqn:Hwait.
      * destruct (os.Success st) eqn:Hok.
        -- intros [= <- <- <-]. right. exists p, st.
           repeat split; assumption || reflexivity.
        -- intros [= <- <- <-]. left. split; [discriminate|].
           eexists. split; [reflexivity|]. exact Hproc.
      * intros [= <- <- <-]. left. split; [discriminate|].
        eexists. split; [reflexivity|]. exact Hproc.
  - intros [= <- <- <-]. left. split; [discriminate|].
    eexists. split; [reflexivity|]. exact Hproc.
Qed.

End Outcomes.

(** ** The lifecycle of the descriptor *)

Section Lifecycle.

Variables nameVar argsVar : string.

Lemma NewFork_fresh (h : Host) (n : string) (target : reflect.value)
  (argv : list string) (f0 : Function) :
  NewFork h n target argv = Some f0 ->
  Process f0 = None /\ ProcessState f0 = None /\
  exec.Process (Command f0) = None.
Proof.
  unfold NewFork.
  destruct (negb _); [discriminate|]. intros [= <-].
  destruct (Nat.eqb (length argv) 0); repeat split; reflexivity.
Qed.

Lemma started_launch (af : os.File) (args : list reflect.value)
  (c : exec.Cmd) (p : os.Process) :
  started (channel_events af args ++ [Started c p]) = [(c, p)].
Proof. now rewrite started_app, started_channel_events. Qed.





End Lifecycle.

(** ** The launch *)

(** C1, on the code: when the arguments pass validation and the
    temporary file cannot be created, [Fork] does not return the error:
    it panics in [af.Name()], called on the nil file before the error is
    looked at.  No process is started and the process handle is left as
    it was. *)
Theorem Fork_without_argument_file_panics (nameVar argsVar : string)
  (h : Host) (f : Function) (args : list reflect.value) (e : error) :
  validateArgs f args = Ret None ->
  ioutil_TempFile h "" "gofork_*" = inr e ->
  Fork nameVar argsVar h args f
  = (set_Command f (configured nameVar h f), [], Panic nil_dereference).
Proof.
  intros Hval Htmp. rewrite Fork_unfold, Hval.
  exact (Fork_steps_2_5_no_tmp nameVar argsVar h args f e Htmp).
Qed.

Lemma Fork_without_argument_file_panics_witness :
  let '(f', tr, r) :=
    Fork Sample.nameVar Sample.argsVar Sample.host_no_tmp
         [Sample.int_v 3; Sample.string_v "x"] Sample.descriptor in
  r = Panic nil_dereference /\ started tr = [] /\ Process f' = None.
Proof.
  rewrite (Fork_without_argument_file_panics Sample.nameVar Sample.argsVar
             Sample.host_no_tmp Sample.descriptor
             [Sample.int_v 3; Sample.string_v "x"]
             (os_error "open /tmp/gofork_271828: permission denied")
             eq_refl eq_refl).
  repeat split.
Defined.

(** C3, on the code: a child that [Fork] starts has for its three
    streams the fields [Stdin], [Stdout] and [Stderr] of the descriptor,
    which replace what [NewFork] had put in the command.  When the caller
    left the three fields unset, the child gets three nil files, that is
    three closed descriptors, and not the streams of the parent. *)
Theorem Fork_unset_streams_are_closed (nameVar argsVar : string) (h : Host)
  (f : Function) (args : list reflect.value) (c : exec.Cmd) (p : os.Process) :
  Stdin f = None -> Stdout f = None -> Stderr f = None ->
  In (c, p) (started (snd (fst (Fork nameVar argsVar h args f)))) ->
  exec.childFile (exec.Stdin c) = exec.ClosedFd /\
  exec.childFile (exec.Stdout c) = exec.ClosedFd /\
  exec.childFile (exec.Stderr c) = exec.ClosedFd.
Proof.
  intros Hin Hout Herr.
  destruct (Fork nameVar argsVar h args f) as [[f' tr] r] eqn:Hrun.
  cbn [fst snd].
  destruct (Fork_outcome nameVar argsVar h args f f' tr r Hrun)
    as [(_ & -> & _)|(af & p' & _ & _ & _ & _ & -> & _ & _)].
  - intros [].
  - rewrite started_launch. intros [[= <- <-]|[]].
    cbn. now rewrite Hin, Hout, Herr.
Qed.

Lemma Fork_unset_streams_are_closed_witness :
  exec.childFile (exec.Stdout (Command Sample.descriptor))
  = exec.Inherit (os.mkFile "/dev/stdout" 1)
  /\
  exists c,
    started (snd (fst (Fork Sample.nameVar Sample.argsVar Sample.host
                         [Sample.int_v 3; Sample.string_v "x"]
                         Sample.descriptor)))
    = [(c, Sample.child)]
    /\ exec.childFile (exec.Stdin c) = exec.ClosedFd
    /\ exec.childFile (exec.Stdout c) = exec.ClosedFd
    /\ exec.childFile (exec.Stderr c) = exec.ClosedFd.
Proof.
  split; [reflexivity|].
  eexists. split; [vm_compute; reflexivity|].
  apply (Fork_unset_streams_are_closed Sample.nameVar Sample.argsVar
           Sample.host Sample.descriptor
           [Sample.int_v 3; Sample.string_v "x"] _ Sample.child).
  - reflexivity.
  - reflexivity.
  - reflexivity.
  - vm_compute. left. reflexivity.
Defined.

(** C7: the environment of a child that [Fork] starts is the environment
    of the parent, whole and in order, followed by two more variables:
    the routing name of the descriptor under [nameVar], and under
    [argsVar] the name of the temporary file that this call created, into
    which the arguments were encoded in order. *)
Theorem Fork_child_environment (nameVar argsVar : string) (h : Host)
  (f : Function) (args : list reflect.value) (c : exec.Cmd) (p : os.Process) :
  In (c, p) (started (snd (fst (Fork nameVar argsVar h args f)))) ->
  exists af,
    ioutil_TempFile h "" "gofork_*" = inl af /\
    In (Created af) (snd (fst (Fork nameVar argsVar h args f))) /\
    payload af (snd (fst (Fork nameVar argsVar h args f))) = args /\
    exec.Env c = os_Environ h
                   ++ [(nameVar ++ "=" ++ Name f)%string;
                       (argsVar ++ "=" ++ os.name af)%string].
Proof.
  destruct (Fork nameVar argsVar h args f) as [[f' tr] r] eqn:Hrun.
  cbn [fst snd].
  destruct (Fork_outcome nameVar argsVar h args f f' tr r Hrun)
    as [(_ & -> & _)|(af & p' & _ & Htmp & _ & _ & -> & _ & _)].
  - intros [].
  - rewrite started_launch. intros [[= <- <-]|[]].
    exists af. split; [exact Htmp|]. split; [now left|]. split.
    + unfold channel_events. cbn [app payload].
      rewrite <- app_assoc, payload_Encoded. cbn. apply app_nil_r.
    + cbn. now rewrite <- app_assoc.
Qed.

Lemma Fork_child_environment_witness :
  exists c,
    started (snd (fst (Fork Sample.nameVar Sample.argsVar Sample.host
                         [Sample.int_v 3; Sample.string_v "x"]
                         Sample.descriptor)))
    = [(c, Sample.child)]
    /\ exec.Env c = ["PATH=/usr/bin"; "HOME=/root"; "GOFORK_NAME=worker";
                     "GOFORK_ARGS=/tmp/gofork_271828"].
Proof.
  pose (c0 := launch_Command Sample.nameVar Sample.argsVar Sample.host
                Sample.descriptor Sample.argfile).
  assert (Hstarted :
            started (snd (fst (Fork Sample.nameVar Sample.argsVar Sample.host
                                 [Sample.int_v 3; Sample.string_v "x"]
                                 Sample.descriptor)))
            = [(c0, Sample.child)])
    by (vm_compute; reflexivity).
  exists c0. split; [exact Hstarted|].
  destruct (Fork_child_environment Sample.nameVar Sample.argsVar Sample.host
              Sample.descriptor [Sample.int_v 3; Sample.string_v "x"]
              c0 Sample.child)
    as (af & Htmp & _ & _ & Henv).
  - rewrite Hstarted. left. reflexivity.
  - cbn in Htmp. injection Htmp as <-. exact Henv.
Defined.

(** ** Relaunch *)

(** C4: [ReFork] is steps 2 to 5 of [Fork], which [Fork] runs after its
    validation, run on the descriptor with a new command that has the
    path of the executable and the argument vector of the command it
    replaces: nothing else of the old command is read, and neither is the
    target, so no argument is validated.  A child it starts has that
    argument vector, the streams and the attributes of the descriptor and
    no process or state of an earlier launch, and its handle replaces the
    process handle of the descriptor. *)
Theorem ReFork_is_steps_2_5_on_new_Command (nameVar argsVar : string)
  (h : Host) (args : list reflect.value) (f : Function) :
  ReFork nameVar argsVar h args f
  = Fork_steps_2_5 nameVar argsVar h args
      (set_Command f (fresh_Command h (exec.Args (Command f))))
  /\
  Fork nameVar argsVar h args f
  = match validateArgs f args with
    | Ret None => Fork_steps_2_5 nameVar argsVar h args f
    | Ret (Some e) => (f, [], Ret (Some e))
    | Panic msg => (f, [], Panic msg)
    end
  /\
  (forall old : exec.Cmd,
      exec.Args old = exec.Args (Command f) ->
      ReFork nameVar argsVar h args (set_Command f old)
      = ReFork nameVar argsVar h args f)
  /\
  (forall target : reflect.value,
      snd (ReFork nameVar argsVar h args (set_fn f target))
      = snd (ReFork nameVar argsVar h args f) /\
      snd (fst (ReFork nameVar argsVar h args (set_fn f target)))
      = snd (fst (ReFork nameVar argsVar h args f)))
  /\
  (forall f' tr,
      ReFork nameVar argsVar h args f = (f', tr, Ret None) ->
      exists c p,
        started tr = [(c, p)] /\
        Process f' = Some p /\
        exec.Path c = fst (os_Executable h) /\
        exec.Args c = exec.Args (Command f) /\
        exec.Stdin c = exec.file (Stdin f) /\
        exec.Stdout c = exec.file (Stdout f) /\
        exec.Stderr c = exec.file (Stderr f) /\
        exec.SysProcAttr c = SysProcAttr f /\
        exec.Process c = None /\
        exec.ProcessState c = None).
Proof.
  split; [apply ReFork_unfold|].
  split; [apply Fork_unfold|].
  split; [|split].
  - intros old Hargs. rewrite !ReFork_unfold.
    cbn [Command set_Command]. now rewrite Hargs.
  - intros target. rewrite !ReFork_unfold.
    set (f0 := set_Command f (fresh_Command h (exec.Args (Command f)))).
    change (set_Command (set_fn f target)
              (fresh_Command h (exec.Args (Command (set_fn f target)))))
      with (set_fn f0 target).
    destruct (ioutil_TempFile h "" "gofork_*") as [af|e] eqn:Htmp.
    + rewrite !(Fork_steps_2_5_tmp nameVar argsVar h args _ af Htmp).
      cbv zeta.
      change (launch_Command nameVar argsVar h (set_fn f0 target) af)
        with (launch_Command nameVar argsVar h f0 af).
      cbn [Command set_fn].
      destruct (exec.Process (Command f0)); [now split|].
      destruct (os_StartProcess h (launch_Command nameVar argsVar h f0 af));
        now split.
    + rewrite !(Fork_steps_2_5_no_tmp nameVar argsVar h args _ e Htmp).
      now split.
  - intros f' tr Hrun.
    destruct (ReFork_outcome nameVar argsVar h args f f' tr (Ret None) Hrun)
      as [(Hr & _)|(af & p & _ & _ & -> & _ & ->)]; [now elim Hr|].
    eexists _, p. split; [apply started_launch|].
    repeat split.
Qed.

Lemma ReFork_is_steps_2_5_on_new_Command_witness :
  (* a descriptor launched once, with a stream of its own, and
     relaunched with arguments that validation refuses *)
  snd (Fork Sample.nameVar Sample.argsVar Sample.host [Sample.int_v 7]
         Sample.launched)
  = Ret (Some (Errorf "incorrect number of args for: func(int, string)"))
  /\
  exists f' tr c,
    ReFork Sample.nameVar Sample.argsVar Sample.host [Sample.int_v 7]
           Sample.launched
    = (f', tr, Ret None)
    /\ started tr = [(c, Sample.child)]
    /\ Process f' = Some Sample.child
    /\ exec.Args c = ["./prog"]
    /\ exec.Stdout c = exec.file (Some Sample.argfile)
    /\ exec.Process c = None.
Proof.
  split; [vm_compute; reflexivity|].
  destruct (ReFork Sample.nameVar Sample.argsVar Sample.host
              [Sample.int_v 7] Sample.launched) as [[f' tr] r] eqn:Hrun.
  assert (Hr : r = Ret None)
    by (apply (f_equal snd) in Hrun; cbn [snd] in Hrun; rewrite <- Hrun;
        vm_compute; reflexivity).
  subst r.
  destruct (ReFork_is_steps_2_5_on_new_Command Sample.nameVar Sample.argsVar
              Sample.host [Sample.int_v 7] Sample.launched)
    as (_ & _ & _ & _ & Hstart).
  destruct (Hstart f' tr Hrun)
    as (c & p & Hst & Hp & _ & Hargs & _ & Hout & _ & _ & Hproc & _).
  assert (Hchild : p = Sample.child).
  { assert (Hsp : map snd (started tr) = [Sample.child])
      by (apply (f_equal (fun x => map snd (started (snd (fst x))))) in Hrun;
          cbn [fst snd] in Hrun; rewrite <- Hrun; vm_compute; reflexivity).
    rewrite Hst in Hsp. now injection Hsp. }
  subst p.
  exists f', tr, c. repeat split; assumption.
Defined.

(** ** Launch and wait *)



(** ** More on validation *)

Section ValidationMore.

Lemma Kind_beq_eq (k k' : reflect.Kind) :
  reflect.Kind_beq k k' = true -> k = k'.
Proof. destruct k, k'; (reflexivity || discriminate). Qed.


Lemma check_kinds_passed (ps : list reflect.rtype) (args : list reflect.value) :
  length args = length ps ->
  check_kinds ps args = Ret None -> Forall2 kind_matches ps args.
Proof.
  revert args. induction ps as [|p ps IH]; intros [|a args] Hlen Hrun;
    try discriminate Hlen; [constructor|].
  cbn [check_kinds] in Hrun.
  destruct a as [|ta da]; [discriminate Hrun|].
  cbn [reflect.TypeOf reflect.Type_Kind result_bind] in Hrun.
  destruct (reflect.Kind_beq (reflect.kind p) (reflect.kind ta)) eqn:Hk;
    cbn [negb] in Hrun; [|discriminate Hrun].
  constructor.
  - unfold kind_matches, kind_of. cbn. now rewrite (Kind_beq_eq _ _ Hk).
  - apply IH; [now injection Hlen|exact Hrun].
Qed.

(** What [validateArgs] has checked when it returns nil. *)
Lemma validateArgs_passed (f : Function) (args : list reflect.value) :
  validateArgs f args = Ret None ->
  exists t d, fn f = reflect.Val t d /\ reflect.kind t = reflect.Func /\
              Forall2 kind_matches (reflect.params t) args.
Proof.
  intros Hval.
  destruct (fn f) as [|t d] eqn:Hfn;
    [unfold validateArgs in Hval; rewrite Hfn in Hval; discriminate Hval|].
  assert (Hfunc : reflect.kind t = reflect.Func).
  { unfold validateArgs, reflect.NumIn in Hval. rewrite Hfn in Hval.
    cbn [reflect.Value_Type result_bind] in Hval.
    destruct (reflect.kind t); try discriminate Hval. reflexivity. }
  exists t, d. split; [reflexivity|]. split; [exact Hfunc|].
  rewrite (validateArgs_Func f args t d Hfn Hfunc) in Hval.
  destruct (Nat.eqb_spec (length args) (length (reflect.params t)))
    as [Hlen|Hlen]; [|discriminate Hval].
  now apply check_kinds_passed.
Qed.



End ValidationMore.



(** X2: [Fork] starts a process only for a target that is a function and
    arguments that are as many as its parameters, each of the kind of its
    parameter. *)
Theorem Fork_starts_only_validated (nameVar argsVar : string) (h : Host)
  (f : Function) (args : list reflect.value) (c : exec.Cmd) (p : os.Process) :
  In (c, p) (started (snd (fst (Fork nameVar argsVar h args f)))) ->
  exists t d, fn f = reflect.Val t d /\ reflect.kind t = reflect.Func /\
              Forall2 kind_matches (reflect.params t) args.
Proof.
  destruct (Fork nameVar argsVar h args f) as [[f' tr] r] eqn:Hrun.
  cbn [fst snd].
  destruct (Fork_outcome nameVar argsVar h args f f' tr r Hrun)
    as [(_ & -> & _)|(af & p' & Hval & _)].
  - intros [].
  - intros _. now apply validateArgs_passed.
Qed.

Lemma Fork_starts_only_validated_witness :
  exists t d, fn Sample.descriptor = reflect.Val t d
              /\ reflect.kind t = reflect.Func
              /\ Forall2 kind_matches (reflect.params t)
                   [Sample.int_v 3; Sample.string_v "x"].
Proof.
  apply (Fork_starts_only_validated Sample.nameVar Sample.argsVar Sample.host
           Sample.descriptor [Sample.int_v 3; Sample.string_v "x"]
           (launch_Command Sample.nameVar Sample.argsVar Sample.host
              Sample.descriptor Sample.argfile)
           Sample.child).
  vm_compute. left. reflexivity.
Defined.



(** ** More on construction and launch *)

(** X4: the command of a descriptor that [NewFork] returns has the path
    that [os.Executable] gave (the error of that call is dropped), the
    argument vector that was passed or, when none was, the single
    [os.Args[0]], so never an empty one, the three streams of the parent,
    and no environment, attributes, process or state; the stream and
    attribute fields of the descriptor itself are unset. *)
Theorem NewFork_command (h : Host) (n : string) (target : reflect.value)
  (argv : list string) (f : Function) :
  NewFork h n target argv = Some f ->
  exec.Path (Command f) = fst (os_Executable h) /\
  exec.Args (Command f) = match argv with
                          | [] => [os_Args0 h]
                          | _ :: _ => argv
                          end /\
  exec.Args (Command f) <> [] /\
  (exec.Stdin (Command f) = exec.file os.Stdin /\
   exec.Stdout (Command f) = exec.file os.Stdout /\
   exec.Stderr (Command f) = exec.file os.Stderr) /\
  (exec.Env (Command f) = [] /\ exec.SysProcAttr (Command f) = None /\
   exec.Process (Command f) = None /\ exec.ProcessState (Command f) = None) /\
  (Stdin f = None /\ Stdout f = None /\ Stderr f = None /\
   SysProcAttr f = None).
Proof.
  unfold NewFork. destruct (negb _); [discriminate|]. intros [= <-].
  destruct argv as [|a argv]; cbn; repeat split; discriminate.
Qed.

Lemma NewFork_command_witness :
  exec.Args (Command Sample.descriptor) = ["./prog"] /\
  exists f, NewFork Sample.host "worker" Sample.worker ["worker"; "-v"] = Some f
            /\ exec.Args (Command f) = ["worker"; "-v"]
            /\ exec.Path (Command f) = "/usr/local/bin/prog".
Proof.
  split.
  - apply (NewFork_command Sample.host "worker" Sample.worker []
             Sample.descriptor eq_refl).
  - eexists. split; [reflexivity|].
    split; apply (NewFork_command Sample.host "worker" Sample.worker
                    ["worker"; "-v"] _ eq_refl).
Defined.









(** ** What the calls keep *)

Section Frame.

Variables nameVar argsVar : string.

Lemma same_configuration_refl (f : Function) : same_configuration f f.
Proof. repeat split. Qed.

Lemma same_configuration_trans (f f' f'' : Function) :
  same_configuration f f' -> same_configuration f' f'' ->
  same_configuration f f''.
Proof.
  unfold same_configuration.
  intros (H1 & H2 & H3 & H4 & H5 & H6 & H7) (G1 & G2 & G3 & G4 & G5 & G6 & G7).
  repeat split; congruence.
Qed.

Lemma Fork_steps_2_5_frame (h : Host) (args : list reflect.value)
  (f : Function) :
  same_configuration f (fst (fst (Fork_steps_2_5 nameVar argsVar h args f))).
Proof.
  destruct (ioutil_TempFile h "" "gofork_*") as [af|e] eqn:Htmp.
  - rewrite (Fork_steps_2_5_tmp nameVar argsVar h args f af Htmp). cbv zeta.
    destruct (exec.Process (Command f)); [repeat split|].
    destruct (os_StartProcess h (launch_Command nameVar argsVar h f af));
      repeat split.
  - rewrite (Fork_steps_2_5_no_tmp nameVar argsVar h args f e Htmp).
    repeat split.
Qed.

Lemma do_call_frame (h : Host) (c : call) (f : Function) :
  same_configuration f (fst (fst (do_call nameVar argsVar h c f))).
Proof.
  destruct c as [args|args|]; cbn [do_call].
  - rewrite Fork_unfold.
    destruct (validateArgs f args) as [[e|]|msg];
      [apply same_configuration_refl
      |apply Fork_steps_2_5_frame
      |apply same_configuration_refl].
  - rewrite ReFork_unfold.
    apply (same_configuration_trans f
             (set_Command f (fresh_Command h (exec.Args (Command f))))).
    + repeat split.
    + apply Fork_steps_2_5_frame.
  - unfold Wait, bind, call_Command, Cmd_Wait, assign, ret.
    destruct (exec.Process (Command f)) as [p|]; [|repeat split].
    destruct (exec.ProcessState (Command f)); [repeat split|].
    destruct (Process_Wait h p) as [st|e]; [|repeat split].
    destruct (os.Success st); repeat split.
Qed.

End Frame.

(** X9: no sequence of calls of [Fork], [ReFork] and [Wait], whatever
    each returns, changes the name, the target, the three stream fields
    or the attributes of the descriptor, or the argument vector of its
    command. *)
Theorem calls_keep_configuration (nameVar argsVar : string)
  (cs : list (Host * call)) (f : Function) :
  same_configuration f (run nameVar argsVar cs f).
Proof.
  revert f. induction cs as [|[h c] cs IH]; intros f.
  - apply same_configuration_refl.
  - cbn [run].
    exact (same_configuration_trans _ _ _
             (do_call_frame nameVar argsVar h c f) (IH _)).
Qed.

(** ** More on waiting *)

Section Handle.

Variables nameVar argsVar : string.

Lemma do_call_handle_inv (h : Host) (c : call) (f : Function) :
  handle_inv f -> handle_inv (fst (fst (do_call nameVar argsVar h c f))).
Proof.
  intros Hinv.
  destruct (do_call nameVar argsVar h c f) as [[f' tr] r] eqn:Hrun.
  cbn [fst]. unfold handle_inv in *.
  destruct c as [args|args|]; cbn [do_call] in Hrun.
  - destruct (Fork_outcome nameVar argsVar h args f f' tr r Hrun)
      as [(_ & _ & c & -> & Hc)
         |(af & p & _ & _ & _ & _ & _ & _ & ->)]; cbn.
    + rewrite Hc. exact Hinv.
    + reflexivity.
  - destruct (ReFork_outcome nameVar argsVar h args f f' tr r Hrun)
      as [(_ & _ & c & -> & Hc)
         |(af & p & _ & _ & _ & _ & ->)]; cbn.
    + rewrite Hc. now intros [].
    + reflexivity.
  - destruct (Wait_outcome h f f' tr r Hrun)
      as [(_ & c & -> & Hc)|(p & st & Hp & _ & _ & _ & _ & ->)]; cbn.
    + rewrite Hc. exact Hinv.
    + exact Hinv.
Qed.

Lemma run_handle_inv (cs : list (Host * call)) (f : Function) :
  handle_inv f -> handle_inv (run nameVar argsVar cs f).
Proof.
  revert f. induction cs as [|[h c] cs IH]; intros f Hinv; [exact Hinv|].
  cbn [run]. apply IH, do_call_handle_inv, Hinv.
Qed.

End Handle.

(** X10: [Wait] on a descriptor that [NewFork] returned and that was
    not launched fails with "exec: not started" and changes nothing. *)
Theorem Wait_before_launch (h0 h : Host) (n : string) (target : reflect.value)
  (argv : list string) (f0 : Function) :
  NewFork h0 n target argv = Some f0 ->
  Wait h f0 = (f0, [], Ret (Some (Errorf "exec: not started"))).
Proof.
  intros Hnew.
  destruct (NewFork_fresh h0 n target argv f0 Hnew) as (_ & _ & Hproc).
  unfold Wait, bind, call_Command, Cmd_Wait, ret. rewrite Hproc.
  cbn. now rewrite set_Command_same.
Qed.

Lemma Wait_before_launch_witness :
  Wait Sample.host Sample.descriptor
  = (Sample.descriptor, [], Ret (Some (Errorf "exec: not started"))).
Proof.
  exact (Wait_before_launch Sample.host Sample.host "worker" Sample.worker []
           Sample.descriptor eq_refl).
Defined.

(** X11: when the child exits without success, [Wait] returns the exit
    error and returns before it copies the state: the terminal state of
    the descriptor stays as it was, and the state of the child is only in
    the command. *)
Theorem Wait_exit_failure (h : Host) (f : Function) (p : os.Process)
  (st : os.ProcessState) :
  exec.Process (Command f) = Some p ->
  exec.ProcessState (Command f) = None ->
  Process_Wait h p = inl st ->
  os.Success st = false ->
  exists f',
    Wait h f = (f', [Reaped p st], Ret (Some (ExitError (os.ExitCode st)))) /\
    ProcessState f' = ProcessState f /\
    exec.ProcessState (Command f') = Some st.
Proof.
  intros Hp Hs Hwait Hfail.
  unfold Wait, bind, call_Command, Cmd_Wait, ret.
  rewrite Hp, Hs, Hwait, Hfail. cbn.
  eexists. split; [reflexivity|]. split; reflexivity.
Qed.

Lemma Wait_exit_failure_witness :
  exists f',
    Wait Sample.host_exit_1 Sample.launched
    = (f', [Reaped Sample.child (os.mkProcessState 4242 1)],
       Ret (Some (ExitError 1))) /\
    ProcessState f' = None /\
    exec.ProcessState (Command f') = Some (os.mkProcessState 4242 1).
Proof.
  exact (Wait_exit_failure Sample.host_exit_1 Sample.launched Sample.child
           (os.mkProcessState 4242 1) eq_refl eq_refl eq_refl eq_refl).
Defined.

(** X12: a process is waited for once.  After a [Wait] that reaped the
    child, whether the child exited with success or not, every further
    [Wait] fails with "exec: Wait was already called" and changes
    nothing. *)
Theorem Wait_once (h h' : Host) (f f' : Function) (tr : list event)
  (r : result (option error)) :
  Wait h f = (f', tr, r) ->
  tr <> [] ->
  Wait h' f' = (f', [], Ret (Some (Errorf "exec: Wait was already called"))).
Proof.
  unfold Wait at 1. unfold bind, call_Command, Cmd_Wait, assign, ret.
  destruct (exec.Process (Command f)) as [p|] eqn:Hp;
    [|intros [= <- <- <-] Htr; now elim Htr].
  destruct (exec.ProcessState (Command f)) as [st0|];
    [intros [= <- <- <-] Htr; now elim Htr|].
  destruct (Process_Wait h p) as [st|e];
    [|intros [= <- <- <-] Htr; now elim Htr].
  destruct (os.Success st); intros [= <- <- <-] _;
    unfold Wait, bind, call_Command, Cmd_Wait, ret; cbn; rewrite Hp;
    reflexivity.
Qed.

Lemma Wait_once_witness :
  snd (Wait Sample.host
         (fst (fst (Wait Sample.host Sample.launched))))
  = Ret (Some (Errorf "exec: Wait was already called")).
Proof.
  rewrite (Wait_once Sample.host Sample.host Sample.launched
             (fst (fst (Wait Sample.host Sample.launched)))
             (snd (fst (Wait Sample.host Sample.launched)))
             (snd (Wait Sample.host Sample.launched))).
  - reflexivity.
  - vm_compute. reflexivity.
  - vm_compute. discriminate.
Defined.

(** X13: a [ReFork] that does not return nil leaves the process handle
    as it was but has replaced the command by one without a process:
    every [Wait] after it fails with "exec: not started" and changes
    nothing, so a child launched earlier can no longer be waited for
    through the descriptor. *)
Theorem ReFork_failure_forgets_child (nameVar argsVar : string) (h h' : Host)
  (args : list reflect.value) (f f' : Function) (tr : list event)
  (r : result (option error)) :
  ReFork nameVar argsVar h args f = (f', tr, r) ->
  r <> Ret None ->
  Process f' = Process f /\
  Wait h' f' = (f', [], Ret (Some (Errorf "exec: not started"))).
Proof.
  intros Hrun Hr.
  destruct (ReFork_outcome nameVar argsVar h args f f' tr r Hrun)
    as [(_ & _ & c & -> & Hc)|(af & p & _ & _ & _ & Hok & _)];
    [|now elim Hr].
  split; [reflexivity|].
  unfold Wait, bind, call_Command, Cmd_Wait, ret.
  cbn [Command set_Command]. rewrite Hc.
  reflexivity.
Qed.

Lemma ReFork_failure_forgets_child_witness :
  let f' := fst (fst (ReFork Sample.nameVar Sample.argsVar Sample.host_no_exec
                        [Sample.int_v 7; Sample.string_v "y"]
                        Sample.launched)) in
  Process f' = Some Sample.child /\
  snd (Wait Sample.host f') = Ret (Some (Errorf "exec: not started")).
Proof.
  intros f'.
  destruct (ReFork_failure_forgets_child Sample.nameVar Sample.argsVar
              Sample.host_no_exec Sample.host
              [Sample.int_v 7; Sample.string_v "y"] Sample.launched f'
              (snd (fst (ReFork Sample.nameVar Sample.argsVar
                           Sample.host_no_exec
                           [Sample.int_v 7; Sample.string_v "y"]
                           Sample.launched)))
              (snd (ReFork Sample.nameVar Sample.argsVar Sample.host_no_exec
                      [Sample.int_v 7; Sample.string_v "y"] Sample.launched)))
    as [Hp Hw].
  - vm_compute. reflexivity.
  - vm_compute. discriminate.
  - split; [rewrite Hp; vm_compute; reflexivity|].
    rewrite Hw. reflexivity.
Defined.

(** X14: after any sequence of calls on a descriptor from [NewFork], a
    [Wait] that returns nil has reaped the process of the process
    handle, which exited with success, and has recorded the state the
    host reported for it as the terminal state. *)
Theorem Wait_reaps_the_handle (nameVar argsVar : string) (h0 h : Host)
  (n : string) (target : reflect.value) (argv : list string)
  (f0 f' : Function) (cs : list (Host * call)) (tr : list event) :
  NewFork h0 n target argv = Some f0 ->
  Wait h (run nameVar argsVar cs f0) = (f', tr, Ret None) ->
  exists p st,
    Process (run nameVar argsVar cs f0) = Some p /\
    Process_Wait h p = inl st /\
    os.Success st = true /\
    tr = [Reaped p st] /\
    ProcessState f' = Some st /\
    Process f' = Some p.
Proof.
  intros Hnew Hrun.
  destruct (NewFork_fresh h0 n target argv f0 Hnew) as (_ & _ & Hproc).
  assert (Hinv : handle_inv (run nameVar argsVar cs f0)).
  { apply run_handle_inv. unfold handle_inv. now rewrite Hproc. }
  destruct (Wait_outcome h _ f' tr _ Hrun)
    as [(Hr & _)|(p & st & Hp & Hwait & Hok & Htr & _ & ->)]; [now elim Hr|].
  assert (Hhandle : Process (run nameVar argsVar cs f0) = Some p).
  { rewrite <- Hp. apply Hinv. rewrite Hp. discriminate. }
  exists p, st. repeat split; assumption.
Qed.

Lemma Wait_reaps_the_handle_witness :
  exists p st,
    Process (run Sample.nameVar Sample.argsVar
               [(Sample.host_no_exec,
                 call_Fork [Sample.int_v 3; Sample.string_v "x"]);
                (Sample.host, call_ReFork [Sample.int_v 3; Sample.string_v "x"])]
               Sample.descriptor) = Some p /\
    Process_Wait Sample.host p = inl st /\
    os.Success st = true.
Proof.
  destruct (Wait_reaps_the_handle Sample.nameVar Sample.argsVar
              Sample.host Sample.host "worker" Sample.worker []
              Sample.descriptor
              (fst (fst (Wait Sample.host
                 (run Sample.nameVar Sample.argsVar
                    [(Sample.host_no_exec,
                      call_Fork [Sample.int_v 3; Sample.string_v "x"]);
                     (Sample.host,
                      call_ReFork [Sample.int_v 3; Sample.string_v "x"])]
                    Sample.descriptor))))
              [(Sample.host_no_exec,
                call_Fork [Sample.int_v 3; Sample.string_v "x"]);
               (Sample.host, call_ReFork [Sample.int_v 3; Sample.string_v "x"])]
              [Reaped Sample.child (os.mkProcessState 4242 0)])
    as (p & st & Hp & Hw & Hok & _).
  - reflexivity.
  - vm_compute. reflexivity.
  - exists p, st. repeat split; assumption.
Defined.
